(** * A shallow embedding of package [log] (github.com/outbrain/log/log.go)

    The package is a process-wide levelled logger: one global threshold,
    one formatting primitive that writes to standard error, and a family
    of entry points per severity.  The embedding keeps the shape of the
    Go file: a [World] holds the package variable and the process
    resources the code touches (standard error, the wall clock, the
    allocator behind [errors.New]); every function is a computation in a
    small monad whose outcomes are "returned" or "the process exited". *)

From Stdlib Require Import ZArith String Ascii List Bool Lia DecimalString.
Import ListNotations.
Local Open Scope string_scope.
Local Open Scope Z_scope.

(** ** Severities: [type LogLevel int] and its constants *)

Definition LogLevel := Z.

Definition FATAL    : LogLevel := 0.
Definition CRITICAL : LogLevel := 1.
Definition ERROR    : LogLevel := 2.
Definition WARNING  : LogLevel := 3.
Definition NOTICE   : LogLevel := 4.
Definition INFO     : LogLevel := 5.
Definition DEBUG    : LogLevel := 6.

(** [func (this LogLevel) String() string]: a switch over the seven
    constants, falling through to "unknown". *)
Definition LogLevel_String (this : LogLevel) : string :=
  if this =? FATAL then "FATAL"
  else if this =? CRITICAL then "CRITICAL"
  else if this =? ERROR then "ERROR"
  else if this =? WARNING then "WARNING"
  else if this =? NOTICE then "NOTICE"
  else if this =? INFO then "INFO"
  else if this =? DEBUG then "DEBUG"
  else "unknown".

(** ** Go values

    An [error] is an interface value: [None] is Go's nil, [Some e] a
    non-nil error.  [err_addr] stands for the identity of the dynamic
    value (what [==] compares), [err_text] for the string its [Error()]
    method returns.  The errors of this model are those whose printing
    is decided by that method, as for the values [errors.New] makes. *)
Record goerror : Type := mkError { err_addr : nat; err_text : string }.

Definition error := option goerror.

(** The operands ([interface{}]) a caller hands to the variadic entry
    points.  [VOther] is an operand of any further type, given by its
    type name and by what [fmt] prints for it under the verbs [v] and
    [s]. *)
Inductive value : Type :=
| VNil
| VString (s : string)
| VInt (n : Z)
| VBool (b : bool)
| VError (e : goerror)
| VLogLevel (l : LogLevel)
| VOther (typeName underV underS : string).

(** ** The part of [fmt.Sprintf] the package relies on *)

Module Fmt.

Definition itoa (n : Z) : string := NilZero.string_of_int (Z.to_int n).

Definition percentBangString : string := "%!".
Definition nilAngleString : string := "<nil>".
Definition noVerbString : string := "%!(NOVERB)".
Definition missingString : string := "(MISSING)".
Definition extraString : string := "%!(EXTRA ".
Definition commaSpaceString : string := ", ".

Definition str (c : ascii) : string := String c EmptyString.

Definition fmtBool (b : bool) : string := if b then "true" else "false".

(** [reflect.TypeOf(arg).String()]; [None] for nil, which has no type,
    and for errors, whose dynamic type the model does not record. *)
Definition typeString (arg : value) : option string :=
  match arg with
  | VNil => None
  | VString _ => Some "string"
  | VInt _ => Some "int"
  | VBool _ => Some "bool"
  | VError _ => None
  | VLogLevel _ => Some "log.LogLevel"
  | VOther typeName _ _ => Some typeName
  end.

(** The operand under verb [v] with no flag set. *)
Definition printV (arg : value) : string :=
  match arg with
  | VNil => nilAngleString
  | VString s => s
  | VInt n => itoa n
  | VBool b => fmtBool b
  | VError e => err_text e
  | VLogLevel l => LogLevel_String l
  | VOther _ underV _ => underV
  end.

Definition badVerb (verb : ascii) (arg : value) : option string :=
  match arg with
  | VNil => Some (percentBangString ++ str verb ++ "(" ++ nilAngleString ++ ")")
  | _ =>
      match typeString arg with
      | Some ty =>
          Some (percentBangString ++ str verb ++ "(" ++ ty ++ "=" ++ printV arg ++ ")")
      | None => None
      end
  end.

(** [printArg] for the flag-free verbs [v], [s], [d] and [t]; [None]
    where the verb or the operand is outside the modelled part. *)
Definition printArg (arg : value) (verb : ascii) : option string :=
  if Ascii.eqb verb "v" then Some (printV arg)
  else if Ascii.eqb verb "s" then
    match arg with
    | VString s => Some s
    | VError e => Some (err_text e)
    | VLogLevel l => Some (LogLevel_String l)
    | VOther _ _ underS => Some underS
    | VNil | VInt _ | VBool _ => badVerb verb arg
    end
  else if Ascii.eqb verb "d" then
    match arg with
    | VInt n => Some (itoa n)
    | VLogLevel l => Some (itoa l)
    | VNil | VString _ | VBool _ => badVerb verb arg
    | VError _ | VOther _ _ _ => None
    end
  else if Ascii.eqb verb "t" then
    match arg with
    | VBool b => Some (fmtBool b)
    | VNil | VString _ | VInt _ => badVerb verb arg
    | VError _ | VLogLevel _ | VOther _ _ _ => None
    end
  else None.

Definition missingArg (verb : ascii) : string :=
  percentBangString ++ str verb ++ missingString.

(** What may follow [%] other than a plain verb: a flag, an argument
    index, a width, a precision, the start of a multi-byte rune, or
    one of the verbs [printArg] treats before looking at the operand
    ([T], [p]) or that depend on the caller ([w]). *)
Definition notPlainVerb (c : ascii) : bool :=
  existsb (Ascii.eqb c)
    ["#"; "0"; "+"; "-"; " "; "["; "*"; "."; "1"; "2"; "3"; "4"; "5";
     "6"; "7"; "8"; "9"; "T"; "p"; "w"]%char
  || (128 <=? nat_of_ascii c)%nat.

(** The operands left over once the format is used up. *)
Fixpoint extraArgs (rest : list value) : option (list string) :=
  match rest with
  | [] => Some []
  | arg :: rest' =>
      match (match arg with
             | VNil => Some nilAngleString
             | _ => option_map (fun ty => ty ++ "=" ++ printV arg) (typeString arg)
             end), extraArgs rest' with
      | Some s, Some l => Some (s :: l)
      | _, _ => None
      end
  end.

Definition checkExtra (a : list value) (argNum : nat) : option string :=
  match skipn argNum a with
  | [] => Some ""
  | rest =>
      option_map (fun l => extraString ++ String.concat commaSpaceString l ++ ")")
                 (extraArgs rest)
  end.

Definition andThen (o : option string) (k : option string) : option string :=
  match o, k with
  | Some s, Some t => Some (s ++ t)
  | _, _ => None
  end.

(** One operand-consuming verb at position [argNum]: the operand is
    printed, or reported missing when none is left. *)
Definition oneVerb (verb : ascii) (a : list value) (argNum : nat) : option string :=
  match nth_error a argNum with
  | Some arg => printArg arg verb
  | None => Some (missingArg verb)
  end.

(** [argNum++], which happens only when an operand was printed. *)
Definition nextArg (a : list value) (argNum : nat) : nat :=
  if (argNum <? length a)%nat then S argNum else argNum.

(** [doPrintf]: literal bytes are copied, [%%] writes one percent
    sign, a trailing [%] writes [noVerbString], [%v %s %d %t] and
    [%+v] print the next operand or report it missing, and any other
    directive falls outside the modelled part ([None]). *)
Fixpoint doPrintf (format : string) (a : list value) (argNum : nat)
  : option string :=
  match format with
  | EmptyString => checkExtra a argNum
  | String c rest =>
      if negb (Ascii.eqb c "%") then
        option_map (String c) (doPrintf rest a argNum)
      else
        match rest with
        | EmptyString => andThen (Some noVerbString) (checkExtra a argNum)
        | String verb rest' =>
            if Ascii.eqb verb "%" then
              option_map (String "%") (doPrintf rest' a argNum)
            else if Ascii.eqb verb "+" then
              match rest' with
              | String verb' rest'' =>
                  if Ascii.eqb verb' "v" then
                    andThen (oneVerb verb' a argNum)
                            (doPrintf rest'' a (nextArg a argNum))
                  else None
              | EmptyString => None
              end
            else if notPlainVerb verb then None
            else
              andThen (oneVerb verb a argNum)
                      (doPrintf rest' a (nextArg a argNum))
        end
  end.

End Fmt.

(** ** The process: package state, standard error, clock, allocator *)

(** A wall-clock reading, broken down in local time as [Format] sees it. *)
Record Time : Type :=
  mkTime { Year : nat; Month : nat; Day : nat;
           Hour : nat; Minute : nat; Second : nat }.

Fixpoint zeros (n : nat) : string :=
  match n with
  | O => ""
  | S n' => String "0" (zeros n')
  end.

(** Decimal digits of [x], left-padded with zeros to [width]. *)
Definition appendInt (x width : nat) : string :=
  let s := NilZero.string_of_uint (Nat.to_uint x) in
  zeros (width - String.length s) ++ s.

(** [const timeFormat = "2006-01-02 15:04:05"] *)
Definition timeFormat : string := "2006-01-02 15:04:05".

(** [t.Format(timeFormat)], for the one layout the package uses. *)
Definition Time_Format (t : Time) : string :=
  appendInt (Year t) 4 ++ "-" ++ appendInt (Month t) 2 ++ "-" ++ appendInt (Day t) 2
  ++ " " ++ appendInt (Hour t) 2 ++ ":" ++ appendInt (Minute t) 2
  ++ ":" ++ appendInt (Second t) 2.

(** [globalLogLevel] is the package variable; [stderr] the bytes written
    to standard error so far; [clock] the readings [time.Now] will give,
    [ticks] how many were taken; [next_addr] the allocator's next
    address. *)
Record World : Type :=
  mkWorld { globalLogLevel : LogLevel;
            stderr : string;
            clock : nat -> Time;
            ticks : nat;
            next_addr : nat }.

(** [var globalLogLevel LogLevel = DEBUG] at process start. *)
Definition initWorld (clk : nat -> Time) : World :=
  mkWorld DEBUG "" clk 0 0.

(** A call either returns a result or ends the process with a status. *)
Inductive Outcome (A : Type) : Type :=
| Returned (a : A) (w : World)
| Exited (code : Z) (w : World).
Arguments Returned {A} a w.
Arguments Exited {A} code w.

Definition Go (A : Type) : Type := World -> Outcome A.

Definition ret {A} (a : A) : Go A := fun w => Returned a w.

Definition bind {A B} (m : Go A) (k : A -> Go B) : Go B :=
  fun w =>
    match m w with
    | Returned a w' => k a w'
    | Exited code w' => Exited code w'
    end.

Declare Scope go_scope.
Delimit Scope go_scope with go.
Notation "x <- m ;; k" := (bind m (fun x => k))
  (at level 61, m at next level, right associativity) : go_scope.
Notation "m ;; k" := (bind m (fun _ => k))
  (at level 61, right associativity) : go_scope.
Local Open Scope go_scope.

(** The world a call leaves behind, however it ended. *)
Definition finalWorld {A} (o : Outcome A) : World :=
  match o with
  | Returned _ w => w
  | Exited _ w => w
  end.

Definition newline : string := String (ascii_of_nat 10) EmptyString.

(** [os.Exit(code)] *)
Definition os_Exit {A} (code : Z) : Go A := fun w => Exited code w.

(** [time.Now()] *)
Definition time_Now : Go Time :=
  fun w =>
    Returned (clock w (ticks w))
             (mkWorld (globalLogLevel w) (stderr w) (clock w) (S (ticks w)) (next_addr w)).

(** [fmt.Fprintln(os.Stderr, s)]; the write's result is dropped, as in
    the source. *)
Definition Fprintln_Stderr (s : string) : Go unit :=
  fun w =>
    Returned tt
             (mkWorld (globalLogLevel w) (stderr w ++ s ++ newline) (clock w) (ticks w)
                      (next_addr w)).

(** [errors.New(text)]: a fresh, non-nil error. *)
Definition errors_New (text : string) : Go error :=
  fun w =>
    Returned (Some (mkError (next_addr w) text))
             (mkWorld (globalLogLevel w) (stderr w) (clock w) (ticks w) (S (next_addr w))).

Definition load_globalLogLevel : Go LogLevel :=
  fun w => Returned (globalLogLevel w) w.

Definition store_globalLogLevel (l : LogLevel) : Go unit :=
  fun w => Returned tt (mkWorld l (stderr w) (clock w) (ticks w) (next_addr w)).

(** ** Vocabulary of the statements *)

(** Does the string hold a percent sign? *)
Fixpoint hasPercent (s : string) : bool :=
  match s with
  | EmptyString => false
  | String c rest => Ascii.eqb c "%" || hasPercent rest
  end.

(** [sub] occurs in [line]. *)
Definition contains (line sub : string) : Prop :=
  exists pre post, line = pre ++ sub ++ post.

Fixpoint containsb (line sub : string) : bool :=
  String.prefix sub line
  || match line with
     | EmptyString => false
     | String _ rest => containsb rest sub
     end.

(** The text [logEntry] appends for one operand, after the space: what
    the verb [s] makes of it. *)
Definition printS (arg : value) : string :=
  match arg with
  | VNil => "%!s(<nil>)"
  | VString s => s
  | VInt n => "%!s(int=" ++ Fmt.itoa n ++ ")"
  | VBool b => "%!s(bool=" ++ Fmt.fmtBool b ++ ")"
  | VError e => err_text e
  | VLogLevel l => LogLevel_String l
  | VOther _ _ underS => underS
  end.

(** The operands of a concatenation call as [logEntry] joins them: each
    one converted to text, each preceded by a single space. *)
Fixpoint argsText (args : list value) : string :=
  match args with
  | [] => ""
  | s :: rest => " " ++ printS s ++ argsText rest
  end.

(** The line of an entry: timestamp, label and message, single spaces
    between them.  The timestamp is the clock reading the call takes. *)
Definition entryLine (w : World) (logLevel : LogLevel) (msg : string) : string :=
  Time_Format (clock w (ticks w)) ++ " " ++ LogLevel_String logLevel ++ " " ++ msg.

(** The world after one entry went out: the line and a newline on
    standard error, one clock reading taken, nothing else touched. *)
Definition emitted (w : World) (line : string) : World :=
  mkWorld (globalLogLevel w) (stderr w ++ line ++ newline) (clock w) (S (ticks w))
          (next_addr w).

(** The world after [errors.New]: one address handed out, nothing
    written. *)
Definition allocated (w : World) : World :=
  mkWorld (globalLogLevel w) (stderr w) (clock w) (ticks w) (S (next_addr w)).

(** A call leaves the package variable as it found it. *)
Definition keepsLevel {A} (m : Go A) : Prop :=
  forall w, globalLogLevel (finalWorld (m w)) = globalLogLevel w.

(** [f] returns a non-nil error whose text is the string the primitive
    [p] returned, and when the entry is suppressed that text is empty and
    nothing was written. *)
Definition returnsWrapped (f : Go error) (p : Go string) (logLevel : LogLevel)
           (w : World) : Prop :=
  (exists s w1 e,
      p w = Returned s w1 /\ f w = Returned (Some e) (allocated w1) /\ err_text e = s)
  /\ (globalLogLevel w < logLevel ->
      exists e, f w = Returned (Some e) (allocated w) /\ err_text e = "").

(** From [w] to [w'], standard error gained nothing and the clock was
    not read, or it gained exactly one line of a defined severity,
    stamped with the one clock reading taken.  Either way what was on
    standard error before is still there, and the clock itself is the
    same. *)
Definition atMostOneLine (w w' : World) : Prop :=
  clock w' = clock w
  /\ ((stderr w' = stderr w /\ ticks w' = ticks w)
      \/ (exists l msg,
             FATAL <= l <= DEBUG
             /\ stderr w' = stderr w ++ entryLine w l msg ++ newline
             /\ ticks w' = S (ticks w))).

(** What is inside the parentheses when the verb [s] rejects an
    operand: nil, an integer or a boolean. *)
Definition badOperandInner (arg : value) : option string :=
  match arg with
  | VNil => Some "<nil>"
  | VInt n => Some ("int=" ++ Fmt.itoa n)
  | VBool b => Some ("bool=" ++ Fmt.fmtBool b)
  | _ => None
  end.

(** Sample data for the closed examples. *)
Definition sampleClock (n : nat) : Time := mkTime 2014 5 6 7 8 (9 + n).

Definition sampleWorld (threshold : LogLevel) : World :=
  mkWorld threshold "" sampleClock 0 0.

(** An arbitrary stand-in for the unmodelled directives; the examples
    stay inside [Fmt.doPrintf] and never consult it. *)
Definition noOther (format : string) (a : list value) : string := "".

(** ** Package [log] *)

Section Log.

(** What [fmt.Sprintf] yields on the directives [Fmt.doPrintf] leaves
    out (flags, widths, indices, other verbs).  Every statement below
    holds whatever this is. *)
Variable Sprintf_other : string -> list value -> string.

(** [fmt.Sprintf(format, a...)] *)
Definition Sprintf (format : string) (a : list value) : string :=
  match Fmt.doPrintf format a 0 with
  | Some s => s
  | None => Sprintf_other format a
  end.

(** [func SetLevel(logLevel LogLevel)] *)
Definition SetLevel (logLevel : LogLevel) : Go unit :=
  store_globalLogLevel logLevel.

(** [func GetLevel() LogLevel] *)
Definition GetLevel : Go LogLevel :=
  load_globalLogLevel.

(** [func logFormattedEntry(logLevel LogLevel, message string,
    args ...interface{}) string] *)
Definition logFormattedEntry (logLevel : LogLevel) (message : string)
           (args : list value) : Go string :=
  level <- load_globalLogLevel ;;
  if logLevel >? level then ret ""
  else
    now <- time_Now ;;
    let entryString :=
      Sprintf "%s %s %s"
              [VString (Time_Format now); VLogLevel logLevel;
               VString (Sprintf message args)] in
    Fprintln_Stderr entryString ;;
    ret entryString.

(** The loop of [logEntry]: [entryString += fmt.Sprintf(" %s", s)]
    for each operand in turn. *)
Definition appendArgs (message : string) (args : list value) : string :=
  fold_left (fun entryString s => entryString ++ Sprintf " %s" [s]) args message.

(** [func logEntry(logLevel LogLevel, message string,
    args ...interface{}) string] *)
Definition logEntry (logLevel : LogLevel) (message : string)
           (args : list value) : Go string :=
  let entryString := appendArgs message args in
  logFormattedEntry logLevel entryString [].

(** [func logErrorEntry(logLevel LogLevel, err error) error] *)
Definition logErrorEntry (logLevel : LogLevel) (err : error) : Go error :=
  match err with
  | None => ret None
  | Some e =>
      let entryString := Sprintf "%+v" [VError e] in
      logEntry logLevel entryString [] ;;
      ret err
  end.

Definition Debug (message : string) (args : list value) : Go string :=
  logEntry DEBUG message args.

Definition Debugf (message : string) (args : list value) : Go string :=
  logFormattedEntry DEBUG message args.

Definition Info (message : string) (args : list value) : Go string :=
  logEntry INFO message args.

Definition Infof (message : string) (args : list value) : Go string :=
  logFormattedEntry INFO message args.

Definition Notice (message : string) (args : list value) : Go string :=
  logEntry NOTICE message args.

Definition Noticef (message : string) (args : list value) : Go string :=
  logFormattedEntry NOTICE message args.

Definition Warning (message : string) (args : list value) : Go error :=
  s <- logEntry WARNING message args ;; errors_New s.

Definition Warningf (message : string) (args : list value) : Go error :=
  s <- logFormattedEntry WARNING message args ;; errors_New s.

Definition Error (message : string) (args : list value) : Go error :=
  s <- logEntry ERROR message args ;; errors_New s.

Definition Errorf (message : string) (args : list value) : Go error :=
  s <- logFormattedEntry ERROR message args ;; errors_New s.

Definition Errore (err : error) : Go error :=
  logErrorEntry ERROR err.

Definition Critical (message : string) (args : list value) : Go error :=
  s <- logEntry CRITICAL message args ;; errors_New s.

Definition Criticalf (message : string) (args : list value) : Go error :=
  s <- logFormattedEntry CRITICAL message args ;; errors_New s.

Definition Criticale (err : error) : Go error :=
  logErrorEntry CRITICAL err.

(** [Fatal]: the entry, then [os.Exit(1)]; the [return] after it is
    kept as written. *)
Definition Fatal (message : string) (args : list value) : Go error :=
  logEntry FATAL message args ;;
  @os_Exit unit 1 ;;
  s <- logEntry CRITICAL message args ;; errors_New s.

(** [Fatalf]: the source calls [logEntry] here, and
    [logFormattedEntry] only in the [return] after the exit. *)
Definition Fatalf (message : string) (args : list value) : Go error :=
  logEntry FATAL message args ;;
  @os_Exit unit 1 ;;
  s <- logFormattedEntry CRITICAL message args ;; errors_New s.

Definition Fatale (err : error) : Go error :=
  logErrorEntry FATAL err ;;
  @os_Exit unit 1 ;;
  ret err.

(** The entry points by convention, each with its severity and seen
    through the world it leaves behind. *)
Definition concatenationFunctions
  : list (LogLevel * (string -> list value -> World -> World)) :=
  [ (DEBUG, fun m a w => finalWorld (Debug m a w));
    (INFO, fun m a w => finalWorld (Info m a w));
    (NOTICE, fun m a w => finalWorld (Notice m a w));
    (WARNING, fun m a w => finalWorld (Warning m a w));
    (ERROR, fun m a w => finalWorld (Error m a w));
    (CRITICAL, fun m a w => finalWorld (Critical m a w));
    (FATAL, fun m a w => finalWorld (Fatal m a w)) ].

Definition formatFunctions
  : list (LogLevel * (string -> list value -> World -> World)) :=
  [ (DEBUG, fun m a w => finalWorld (Debugf m a w));
    (INFO, fun m a w => finalWorld (Infof m a w));
    (NOTICE, fun m a w => finalWorld (Noticef m a w));
    (WARNING, fun m a w => finalWorld (Warningf m a w));
    (ERROR, fun m a w => finalWorld (Errorf m a w));
    (CRITICAL, fun m a w => finalWorld (Criticalf m a w)) ].

Definition passthroughFunctions : list (LogLevel * (error -> Go error)) :=
  [ (ERROR, Errore); (CRITICAL, Criticale); (FATAL, Fatale) ].

(** The text [logErrorEntry] renders for a non-nil error. *)
Definition rendered (e : goerror) : string := Sprintf "%+v" [VError e].

(** The message of an entry under each convention: the template with
    its operands substituted, or the message joined with its operands
    and then used as a template without operands. *)
Definition formatMessage (message : string) (args : list value) : string :=
  Sprintf message args.

Definition concatMessage (message : string) (args : list value) : string :=
  Sprintf (message ++ argsText args) [].

(** The entry points that return the rendered string, and those that
    return it wrapped in an error, each with its severity and its
    convention. *)
Definition stringEntryPoints
  : list (LogLevel * (string -> list value -> Go string)
          * (string -> list value -> string)) :=
  [ (DEBUG, Debug, concatMessage); (DEBUG, Debugf, formatMessage);
    (INFO, Info, concatMessage); (INFO, Infof, formatMessage);
    (NOTICE, Notice, concatMessage); (NOTICE, Noticef, formatMessage) ].

Definition errorEntryPoints
  : list (LogLevel * (string -> list value -> Go error)
          * (string -> list value -> string)) :=
  [ (WARNING, Warning, concatMessage); (WARNING, Warningf, formatMessage);
    (ERROR, Error, concatMessage); (ERROR, Errorf, formatMessage);
    (CRITICAL, Critical, concatMessage); (CRITICAL, Criticalf, formatMessage) ].

(** The twelve entry points that return to their caller after logging,
    seen through the world they leave behind. *)
Definition returningEntryPoints
  : list (LogLevel * (string -> list value -> World -> World)
          * (string -> list value -> string)) :=
  map (fun '(l, f, msgOf) => (l, fun m a w => finalWorld (f m a w), msgOf))
      stringEntryPoints
  ++ map (fun '(l, f, msgOf) => (l, fun m a w => finalWorld (f m a w), msgOf))
         errorEntryPoints.

(** Every logging entry point of the package on given arguments, seen
    through the world it leaves behind. *)
Definition publicCalls (message : string) (args : list value) (err : error)
  : list (World -> World) :=
  [ fun w => finalWorld (Debug message args w);
    fun w => finalWorld (Debugf message args w);
    fun w => finalWorld (Info message args w);
    fun w => finalWorld (Infof message args w);
    fun w => finalWorld (Notice message args w);
    fun w => finalWorld (Noticef message args w);
    fun w => finalWorld (Warning message args w);
    fun w => finalWorld (Warningf message args w);
    fun w => finalWorld (Error message args w);
    fun w => finalWorld (Errorf message args w);
    fun w => finalWorld (Errore err w);
    fun w => finalWorld (Critical message args w);
    fun w => finalWorld (Criticalf message args w);
    fun w => finalWorld (Criticale err w);
    fun w => finalWorld (Fatal message args w);
    fun w => finalWorld (Fatalf message args w);
    fun w => finalWorld (Fatale err w) ].

(** ** Strings *)

Lemma append_assoc (a b c : string) : (a ++ b) ++ c = a ++ b ++ c.
Proof. induction a as [|x a IH]; cbn; [reflexivity | now rewrite IH]. Qed.

Lemma append_nil_r (a : string) : a ++ "" = a.
Proof. induction a as [|x a IH]; cbn; [reflexivity | now rewrite IH]. Qed.

Lemma length_append (a b : string) :
  String.length (a ++ b) = (String.length a + String.length b)%nat.
Proof. induction a as [|x a IH]; cbn; [reflexivity | now rewrite IH]. Qed.

Lemma append_fixed (a b : string) : a ++ b = a -> b = "".
Proof.
  intros H. apply (f_equal String.length) in H. rewrite length_append in H.
  destruct b; [reflexivity | cbn in H; lia].
Qed.

Lemma append_newline_grows (a line : string) : a ++ line ++ newline <> a.
Proof.
  intros H. apply append_fixed in H.
  apply (f_equal String.length) in H. rewrite length_append in H.
  cbn in H. lia.
Qed.

Lemma prefix_append (sub post : string) : String.prefix sub (sub ++ post) = true.
Proof.
  induction sub as [|x sub IH]; cbn.
  - now destruct post.
  - destruct (ascii_dec x x); [exact IH | congruence].
Qed.

Lemma contains_containsb (line sub : string) :
  contains line sub -> containsb line sub = true.
Proof.
  intros (pre & post & ->). induction pre as [|x pre IH].
  - cbn [append]. destruct (sub ++ post) eqn:E; cbn [containsb];
      rewrite <- E, prefix_append; reflexivity.
  - cbn [append containsb]. rewrite IH. apply orb_true_r.
Qed.

(** ** Facts about the formatter *)

Lemma doPrintf_no_percent (s : string) :
  hasPercent s = false -> Fmt.doPrintf s [] 0 = Some s.
Proof.
  induction s as [|c s IH]; cbn; intros H.
  - reflexivity.
  - apply orb_false_iff in H as [Hc Hs]. rewrite Hc. cbn.
    now rewrite (IH Hs).
Qed.

Lemma Sprintf_no_percent (s : string) :
  hasPercent s = false -> Sprintf s [] = s.
Proof. intros H. unfold Sprintf. now rewrite doPrintf_no_percent. Qed.

Lemma Sprintf_entry (stamp : string) (l : LogLevel) (msg : string) :
  Sprintf "%s %s %s" [VString stamp; VLogLevel l; VString msg]
  = stamp ++ " " ++ LogLevel_String l ++ " " ++ msg.
Proof.
  unfold Sprintf. cbn -[LogLevel_String].
  now rewrite append_nil_r.
Qed.

Lemma Sprintf_space_s (arg : value) : Sprintf " %s" [arg] = " " ++ printS arg.
Proof.
  unfold Sprintf. destruct arg; cbn -[LogLevel_String Fmt.itoa];
    rewrite ?append_nil_r; reflexivity.
Qed.

Lemma Sprintf_plus_v_error (e : goerror) : Sprintf "%+v" [VError e] = err_text e.
Proof. unfold Sprintf. cbn. now rewrite append_nil_r. Qed.

Lemma appendArgs_concat (message : string) (args : list value) :
  appendArgs message args = message ++ argsText args.
Proof.
  unfold appendArgs. revert message.
  induction args as [|s args IH]; intros message; cbn [fold_left argsText].
  - now rewrite append_nil_r.
  - now rewrite IH, Sprintf_space_s, !append_assoc.
Qed.

(** ** What the two primitives do, in one equation each *)

Lemma logFormattedEntry_run (logLevel : LogLevel) (message : string)
      (args : list value) (w : World) :
  logFormattedEntry logLevel message args w
  = if logLevel >? globalLogLevel w then Returned "" w
    else let line := entryLine w logLevel (Sprintf message args) in
         Returned line (emitted w line).
Proof.
  unfold logFormattedEntry, bind, load_globalLogLevel.
  destruct (logLevel >? globalLogLevel w); [reflexivity|].
  unfold time_Now, Fprintln_Stderr, ret, entryLine, emitted.
  cbn [globalLogLevel stderr clock ticks next_addr].
  rewrite Sprintf_entry. reflexivity.
Qed.

Lemma logEntry_run (logLevel : LogLevel) (message : string)
      (args : list value) (w : World) :
  logEntry logLevel message args w
  = if logLevel >? globalLogLevel w then Returned "" w
    else let line := entryLine w logLevel (Sprintf (appendArgs message args) []) in
         Returned line (emitted w line).
Proof. unfold logEntry. apply logFormattedEntry_run. Qed.

Lemma logErrorEntry_run (logLevel : LogLevel) (e : goerror) (w : World) :
  logErrorEntry logLevel (Some e) w
  = if logLevel >? globalLogLevel w then Returned (Some e) w
    else Returned (Some e)
                  (emitted w (entryLine w logLevel (Sprintf (err_text e) []))).
Proof.
  unfold logErrorEntry, bind. rewrite logEntry_run, Sprintf_plus_v_error.
  cbn [appendArgs fold_left].
  destruct (logLevel >? globalLogLevel w); reflexivity.
Qed.

(** ** Frame lemmas for the package variable *)

Lemma keepsLevel_ret {A} (a : A) : keepsLevel (ret a).
Proof. intros w. reflexivity. Qed.

Lemma keepsLevel_exit {A} (code : Z) : keepsLevel (@os_Exit A code).
Proof. intros w. reflexivity. Qed.

Lemma keepsLevel_errors_New (text : string) : keepsLevel (errors_New text).
Proof. intros w. reflexivity. Qed.

Lemma keepsLevel_bind {A B} (m : Go A) (k : A -> Go B) :
  keepsLevel m -> (forall a, keepsLevel (k a)) -> keepsLevel (bind m k).
Proof.
  intros Hm Hk w. unfold bind. specialize (Hm w).
  destruct (m w) as [a w'|code w']; cbn in *.
  - now rewrite Hk.
  - exact Hm.
Qed.

Lemma keepsLevel_logFormattedEntry (l : LogLevel) (message : string)
      (args : list value) : keepsLevel (logFormattedEntry l message args).
Proof.
  intros w. rewrite logFormattedEntry_run.
  destruct (l >? globalLogLevel w); reflexivity.
Qed.

Lemma keepsLevel_logEntry (l : LogLevel) (message : string) (args : list value) :
  keepsLevel (logEntry l message args).
Proof. apply keepsLevel_logFormattedEntry. Qed.

Lemma keepsLevel_logErrorEntry (l : LogLevel) (err : error) :
  keepsLevel (logErrorEntry l err).
Proof.
  destruct err as [e|]; [|apply keepsLevel_ret].
  apply keepsLevel_bind; [apply keepsLevel_logEntry | intros; apply keepsLevel_ret].
Qed.

Create HintDb frame.
#[local] Hint Resolve keepsLevel_ret keepsLevel_exit keepsLevel_errors_New
  keepsLevel_logFormattedEntry keepsLevel_logEntry keepsLevel_logErrorEntry : frame.
#[local] Hint Extern 2 (keepsLevel (bind _ _)) =>
  apply keepsLevel_bind; [|intros] : frame.

(** At process start the threshold is DEBUG, so every defined severity
    passes the gate. *)
Lemma initial_threshold_admits_all (clk : nat -> Time) (l : LogLevel) :
  GetLevel (initWorld clk) = Returned DEBUG (initWorld clk)
  /\ (FATAL <= l <= DEBUG -> (l >? globalLogLevel (initWorld clk)) = false).
Proof.
  split; [reflexivity|]. cbn. unfold FATAL, DEBUG. intros H.
  destruct (Z.gtb_spec l 6); [lia | reflexivity].
Qed.

(** ** The claims *)

(** C1. For every severity S and every threshold T, the formatting
    primitive writes the entry to standard error if and only if
    ordinal(S) <= ordinal(T); when it is written, standard error gains
    the line and a newline; when ordinal(S) > ordinal(T) the primitive
    performs no I/O (the world is untouched) and returns the empty
    string. *)
Theorem C1_written_iff_within_threshold
        (sev : LogLevel) (message : string) (args : list value) (w : World) :
  let T := globalLogLevel w in
  let o := logFormattedEntry sev message args w in
  (stderr (finalWorld o) <> stderr w <-> sev <= T)
  /\ (sev <= T -> exists line,
         stderr (finalWorld o) = stderr w ++ line ++ newline)
  /\ (sev > T -> o = Returned "" w).
Proof.
  cbv zeta. rewrite logFormattedEntry_run.
  destruct (Z.gtb_spec sev (globalLogLevel w)) as [Hgt|Hle]; cbn.
  - repeat split; try lia; try congruence.
  - repeat split; try lia.
    + intros _. apply append_newline_grows.
    + intros _. eexists. reflexivity.
Qed.

(** C7. For every integer X, inside or outside the enumeration,
    SetLevel(X) overwrites the threshold without any validation and a
    following GetLevel() returns exactly X; nothing else in the world
    changes. *)
Theorem C7_SetLevel_then_GetLevel (X : LogLevel) (w : World) :
  (SetLevel X ;; GetLevel) w
  = Returned X (mkWorld X (stderr w) (clock w) (ticks w) (next_addr w)).
Proof. reflexivity. Qed.

(** C8. The label function sends 0..6 to FATAL, CRITICAL, ERROR,
    WARNING, NOTICE, INFO, DEBUG in that order and every other integer
    to the literal unknown. *)
Theorem C8_labels (z : Z) :
  LogLevel_String z
  = match z with
    | 0 => "FATAL" | 1 => "CRITICAL" | 2 => "ERROR" | 3 => "WARNING"
    | 4 => "NOTICE" | 5 => "INFO" | 6 => "DEBUG"
    | _ => "unknown"
    end.
Proof.
  unfold LogLevel_String, FATAL, CRITICAL, ERROR, WARNING, NOTICE, INFO, DEBUG.
  destruct z as [|p|p]; [reflexivity| |reflexivity].
  do 3 (destruct p as [p|p|]; try reflexivity).
Qed.

(** C9. Every logging entry point, the Fatal family up to its exit
    included, leaves the global threshold as it was, and so does
    GetLevel; SetLevel is the one operation that sets it. *)
Theorem C9_only_SetLevel_changes_threshold
        (message : string) (args : list value) (err : error) :
  (keepsLevel (Debug message args) /\ keepsLevel (Debugf message args)
   /\ keepsLevel (Info message args) /\ keepsLevel (Infof message args)
   /\ keepsLevel (Notice message args) /\ keepsLevel (Noticef message args))
  /\ (keepsLevel (Warning message args) /\ keepsLevel (Warningf message args)
      /\ keepsLevel (Error message args) /\ keepsLevel (Errorf message args)
      /\ keepsLevel (Errore err)
      /\ keepsLevel (Critical message args) /\ keepsLevel (Criticalf message args)
      /\ keepsLevel (Criticale err))
  /\ (keepsLevel (Fatal message args) /\ keepsLevel (Fatalf message args)
      /\ keepsLevel (Fatale err))
  /\ keepsLevel GetLevel
  /\ (forall X w, globalLogLevel (finalWorld (SetLevel X w)) = X).
Proof.
  unfold Debug, Debugf, Info, Infof, Notice, Noticef, Warning, Warningf,
    Error, Errorf, Errore, Critical, Criticalf, Criticale, Fatal, Fatalf, Fatale.
  repeat split; auto 8 with frame.
  all: intros w; reflexivity.
Qed.

(** C3. Warning, Warningf, Error, Errorf, Critical and Criticalf return
    a non-nil error whose text is the string the primitive rendered,
    also when the threshold suppresses the entry: the error then wraps
    the empty string and nothing is written.  With threshold FATAL,
    Warning writes nothing and returns a non-nil error wrapping the
    empty string. *)
Theorem C3_error_levels_wrap_rendered_string
        (message : string) (args : list value) (w : World) :
  returnsWrapped (Warning message args) (logEntry WARNING message args) WARNING w
  /\ returnsWrapped (Warningf message args)
                    (logFormattedEntry WARNING message args) WARNING w
  /\ returnsWrapped (Error message args) (logEntry ERROR message args) ERROR w
  /\ returnsWrapped (Errorf message args)
                    (logFormattedEntry ERROR message args) ERROR w
  /\ returnsWrapped (Critical message args) (logEntry CRITICAL message args) CRITICAL w
  /\ returnsWrapped (Criticalf message args)
                    (logFormattedEntry CRITICAL message args) CRITICAL w
  /\ (globalLogLevel w = FATAL ->
      exists e, Warning message args w = Returned (Some e) (allocated w)
                /\ err_text e = ""
                /\ stderr (allocated w) = stderr w).
Proof.
  assert (wrap : forall l (p : Go string),
             (p w = if l >? globalLogLevel w then Returned "" w
                    else p w) ->
             (exists s w1, p w = Returned s w1) ->
             returnsWrapped (s <- p ;; errors_New s) p l w).
  { intros l p Hsup (s & w1 & Hp). split.
    - exists s, w1, (mkError (next_addr w1) s). unfold bind. rewrite Hp.
      repeat split.
    - intros Hlt. exists (mkError (next_addr w) "").
      destruct (Z.gtb_spec l (globalLogLevel w)) as [_|Hle]; [|lia].
      unfold bind. rewrite Hsup. repeat split. }
  assert (prim : forall l m a,
             (logFormattedEntry l m a w
              = if l >? globalLogLevel w then Returned "" w
                else logFormattedEntry l m a w)
             /\ exists s w1, logFormattedEntry l m a w = Returned s w1).
  { intros l m a. rewrite logFormattedEntry_run.
    destruct (l >? globalLogLevel w); split; eauto. }
  repeat match goal with |- returnsWrapped _ _ _ _ /\ _ => split end.
  1-6: unfold Warning, Warningf, Error, Errorf, Critical, Criticalf, logEntry;
    apply wrap; apply prim.
  intros HT. exists (mkError (next_addr w) "").
  unfold Warning, bind. rewrite logEntry_run, HT. repeat split.
Qed.

(** ** Emission through the two conventions *)

Lemma logEntry_emits (l : LogLevel) (message : string) (args : list value)
      (w : World) :
  l <= globalLogLevel w ->
  logEntry l message args w
  = Returned (entryLine w l (Sprintf (message ++ argsText args) []))
             (emitted w (entryLine w l (Sprintf (message ++ argsText args) []))).
Proof.
  intros Hle. rewrite logEntry_run, appendArgs_concat.
  destruct (Z.gtb_spec l (globalLogLevel w)); [lia | reflexivity].
Qed.

Lemma logEntry_suppressed (l : LogLevel) (message : string) (args : list value)
      (w : World) :
  globalLogLevel w < l -> logEntry l message args w = Returned "" w.
Proof.
  intros Hlt. rewrite logEntry_run.
  destruct (Z.gtb_spec l (globalLogLevel w)); [reflexivity | lia].
Qed.

Lemma logFormattedEntry_emits (l : LogLevel) (message : string)
      (args : list value) (w : World) :
  l <= globalLogLevel w ->
  logFormattedEntry l message args w
  = Returned (entryLine w l (Sprintf message args))
             (emitted w (entryLine w l (Sprintf message args))).
Proof.
  intros Hle. rewrite logFormattedEntry_run.
  destruct (Z.gtb_spec l (globalLogLevel w)); [lia | reflexivity].
Qed.

Lemma logErrorEntry_emits (l : LogLevel) (e : goerror) (w : World) :
  l <= globalLogLevel w ->
  logErrorEntry l (Some e) w
  = Returned (Some e) (emitted w (entryLine w l (Sprintf (rendered e) []))).
Proof.
  intros Hle. unfold rendered. rewrite logErrorEntry_run, Sprintf_plus_v_error.
  destruct (Z.gtb_spec l (globalLogLevel w)); [lia | reflexivity].
Qed.

Lemma logErrorEntry_suppressed (l : LogLevel) (e : goerror) (w : World) :
  globalLogLevel w < l -> logErrorEntry l (Some e) w = Returned (Some e) w.
Proof.
  intros Hlt. rewrite logErrorEntry_run.
  destruct (Z.gtb_spec l (globalLogLevel w)); [reflexivity | lia].
Qed.

(** Splits membership in one of the tables into its rows. *)
Ltac rows H :=
  cbn [In concatenationFunctions formatFunctions passthroughFunctions] in H;
  repeat (destruct H as [H|H]; [injection H as <- <-|]); [..|contradiction].

(** The format-convention entry points that return: the message is the
    template with the operands substituted by [Sprintf]. *)
Lemma formatted_entries_substitute
      (logLevel : LogLevel) (f : string -> list value -> World -> World)
      (message : string) (args : list value) (w : World) :
  In (logLevel, f) formatFunctions ->
  logLevel <= globalLogLevel w ->
  stderr (f message args w)
  = stderr w ++ entryLine w logLevel (Sprintf message args) ++ newline.
Proof.
  intros Hin Hle. rows Hin;
    unfold Debugf, Infof, Noticef, Warningf, Errorf, Criticalf, bind;
    rewrite logFormattedEntry_emits by exact Hle; reflexivity.
Qed.

Lemma Infof_count (w : World) :
  INFO <= globalLogLevel w ->
  Infof "count=%d" [VInt 5] w
  = Returned (entryLine w INFO "count=5") (emitted w (entryLine w INFO "count=5")).
Proof. intros Hle. unfold Infof. now rewrite logFormattedEntry_emits. Qed.

(** C2, as the code has it.  Each concatenation entry point (Debug,
    Info, Notice, Warning, Error, Critical, Fatal) whose severity the
    threshold permits builds its text from the message followed by each
    operand converted to text and preceded by a single space; that text
    is then the template of the format step with no operands, so a
    percent directive in it is interpreted, and it is the message of the
    entry unchanged when it holds no percent sign.  Info("a", "b", "c")
    with threshold INFO writes a line ending in "a b c". *)
Theorem C2_concatenation_goes_through_format_step
        (logLevel : LogLevel) (f : string -> list value -> World -> World)
        (message : string) (args : list value) (w : World) :
  In (logLevel, f) concatenationFunctions ->
  logLevel <= globalLogLevel w ->
  let text := message ++ argsText args in
  stderr (f message args w)
  = stderr w ++ entryLine w logLevel (Sprintf text []) ++ newline
  /\ (hasPercent text = false ->
      stderr (f message args w) = stderr w ++ entryLine w logLevel text ++ newline)
  /\ (forall w0, globalLogLevel w0 = INFO ->
      stderr (finalWorld (Info "a" [VString "b"; VString "c"] w0))
      = stderr w0 ++ entryLine w0 INFO "a b c" ++ newline).
Proof.
  intros Hin Hle text.
  assert (Hf : stderr (f message args w)
               = stderr w ++ entryLine w logLevel (Sprintf text []) ++ newline).
  { rows Hin;
      unfold Debug, Info, Notice, Warning, Error, Critical, Fatal, bind;
      rewrite logEntry_emits by exact Hle; reflexivity. }
  split; [exact Hf|]. split.
  - intros Hno. rewrite Hf, Sprintf_no_percent by exact Hno. reflexivity.
  - intros w0 H0. unfold Info.
    rewrite logEntry_emits by (rewrite H0; unfold INFO; lia). reflexivity.
Qed.

(** C4, as the code has it.  For every threshold, Fatal, Fatalf and
    Fatale with a non-nil error end the process with exit status 1 and
    never return.  Before that the entry is rendered and written when
    the threshold is at least FATAL (0), as every defined severity is;
    under a negative threshold nothing is written. *)
Theorem C4_fatal_family_exits
        (message : string) (args : list value) (e : goerror) (w : World) :
  Forall (fun call : Go error =>
            (exists w', call w = Exited 1 w')
            /\ (FATAL <= globalLogLevel w ->
                exists msg, call w = Exited 1 (emitted w (entryLine w FATAL msg)))
            /\ (globalLogLevel w < FATAL -> call w = Exited 1 w))
         [Fatal message args; Fatalf message args; Fatale (Some e)].
Proof.
  repeat constructor; unfold Fatal, Fatalf, Fatale, bind.
  all: destruct (Z.le_gt_cases FATAL (globalLogLevel w)) as [Hle|Hlt].
  all: try (rewrite logEntry_emits by exact Hle);
    try (rewrite logErrorEntry_emits by exact Hle);
    try (rewrite logEntry_suppressed by exact Hlt);
    try (rewrite logErrorEntry_suppressed by exact Hlt);
    cbn [os_Exit]; try lia; eauto.
Qed.

(** C5, as the code has it.  Errore and Criticale with a nil error log
    nothing and return nil under every threshold.  With a non-nil error
    they return that very error and make no new one; when the threshold
    permits the severity they write one line whose message is the error's
    rendered text after the format step with no operands, which is the
    rendered text itself, so that the line contains it, whenever that
    text holds no percent sign. *)
Theorem C5_passthrough_returns_the_error (e : goerror) (w : World) :
  Forall (fun '(logLevel, f) =>
            f None w = Returned None w
            /\ (exists w', f (Some e) w = Returned (Some e) w'
                           /\ next_addr w' = next_addr w)
            /\ (logLevel <= globalLogLevel w ->
                f (Some e) w
                = Returned (Some e)
                           (emitted w (entryLine w logLevel (Sprintf (rendered e) []))))
            /\ (logLevel <= globalLogLevel w ->
                hasPercent (rendered e) = false ->
                f (Some e) w
                = Returned (Some e) (emitted w (entryLine w logLevel (rendered e)))
                /\ contains (stderr (emitted w (entryLine w logLevel (rendered e))))
                            (rendered e)))
         [(ERROR, Errore); (CRITICAL, Criticale)].
Proof.
  assert (each : forall l,
             logErrorEntry l None w = Returned None w
             /\ (exists w', logErrorEntry l (Some e) w = Returned (Some e) w'
                            /\ next_addr w' = next_addr w)
             /\ (l <= globalLogLevel w ->
                 logErrorEntry l (Some e) w
                 = Returned (Some e)
                            (emitted w (entryLine w l (Sprintf (rendered e) []))))
             /\ (l <= globalLogLevel w ->
                 hasPercent (rendered e) = false ->
                 logErrorEntry l (Some e) w
                 = Returned (Some e) (emitted w (entryLine w l (rendered e)))
                 /\ contains (stderr (emitted w (entryLine w l (rendered e))))
                             (rendered e))).
  { intros l. split; [reflexivity|]. split; [|split].
    - rewrite logErrorEntry_run.
      destruct (l >? globalLogLevel w); eexists; split; reflexivity.
    - apply logErrorEntry_emits.
    - intros Hle Hno. split.
      + rewrite logErrorEntry_emits by exact Hle.
        rewrite Sprintf_no_percent by exact Hno. reflexivity.
      + unfold emitted, entryLine. cbn [stderr].
        exists (stderr w ++ Time_Format (clock w (ticks w)) ++ " "
                       ++ LogLevel_String l ++ " "), newline.
        rewrite !append_assoc. reflexivity. }
  constructor; [apply each|]. constructor; [apply each|]. constructor.
Qed.

(** C10. The error-passthrough entry points hand the error's rendered
    text to the format step with no operands: for every non-nil error
    whose text holds no percent sign the message written is that text
    exactly, and there is a non-nil error whose text holds a percent
    verb for which the message written differs from the text. *)
Theorem C10_error_text_is_used_as_template :
  (forall logLevel f (e : goerror) (w : World),
      In (logLevel, f) passthroughFunctions ->
      logLevel <= globalLogLevel w ->
      stderr (finalWorld (f (Some e) w))
      = stderr w ++ entryLine w logLevel (Sprintf (rendered e) []) ++ newline
      /\ (hasPercent (rendered e) = false ->
          stderr (finalWorld (f (Some e) w))
          = stderr w ++ entryLine w logLevel (rendered e) ++ newline))
  /\ (exists (e : goerror) (w : World) (msg : string),
         hasPercent (rendered e) = true
         /\ stderr (finalWorld (Errore (Some e) w))
            = stderr w ++ entryLine w ERROR msg ++ newline
         /\ msg <> rendered e).
Proof.
  split.
  - intros logLevel f e w Hin Hle.
    assert (Hf : stderr (finalWorld (f (Some e) w))
                 = stderr w ++ entryLine w logLevel (Sprintf (rendered e) [])
                            ++ newline).
    { rows Hin; unfold Errore, Criticale, Fatale, bind;
        rewrite logErrorEntry_emits by exact Hle; reflexivity. }
    split; [exact Hf|].
    intros Hno. rewrite Hf, Sprintf_no_percent by exact Hno. reflexivity.
  - exists (mkError 0 "%d"), (sampleWorld DEBUG), "%!d(MISSING)".
    split; [reflexivity|]. split.
    + unfold Errore. rewrite logErrorEntry_emits by (cbn; unfold ERROR, DEBUG; lia).
      reflexivity.
    + discriminate.
Qed.

(** C6 at Fatalf.  The entry point named as the format variant of the
    FATAL level builds its entry exactly as Fatal does, by
    concatenation: on the template count=%d with operand 5 it writes a
    FATAL line ending in count=%!d(MISSING) %!!(MISSING)s(int=5), where
    Criticalf on the same input writes a line ending in count=5. *)
Theorem C6_Fatalf_concatenates_instead_of_formatting :
  (forall message args w, Fatalf message args w = Fatal message args w)
  /\ Fatalf "count=%d" [VInt 5] (sampleWorld DEBUG)
     = Exited 1
         (emitted (sampleWorld DEBUG)
            "2014-05-06 07:08:09 FATAL count=%!d(MISSING) %!!(MISSING)s(int=5)")
  /\ Criticalf "count=%d" [VInt 5] (sampleWorld DEBUG)
     = Returned
         (Some (mkError 0 "2014-05-06 07:08:09 CRITICAL count=5"))
         (allocated (emitted (sampleWorld DEBUG)
                             "2014-05-06 07:08:09 CRITICAL count=5")).
Proof.
  split; [|split].
  - intros message args w. unfold Fatalf, Fatal, bind.
    destruct (logEntry FATAL message args w); reflexivity.
  - vm_compute. reflexivity.
  - vm_compute. reflexivity.
Qed.

(** ** Further properties of the entry points *)

Lemma entryLine_nonempty (w : World) (l : LogLevel) (msg : string) :
  entryLine w l msg <> "".
Proof.
  unfold entryLine. intros H. apply (f_equal String.length) in H.
  rewrite length_append in H. cbn in H. lia.
Qed.

(** Splits membership in a table of triples into its rows. *)
Ltac rows3 H :=
  cbn [In stringEntryPoints errorEntryPoints] in H;
  repeat (destruct H as [H|H]; [injection H as <- <- <-|]); [..|contradiction].

(** X1. Debug, Debugf, Info, Infof, Notice and Noticef return exactly
    the line they wrote, without the newline: the timestamp, the label
    and the message of their convention.  They return the empty string
    exactly when the threshold suppresses the entry, and then the world
    is untouched. *)
Theorem X1_string_results_are_the_lines_written
        (l : LogLevel) (f : string -> list value -> Go string)
        (msgOf : string -> list value -> string)
        (message : string) (args : list value) (w : World) :
  In (l, f, msgOf) stringEntryPoints ->
  exists s w',
    f message args w = Returned s w'
    /\ (s = "" <-> globalLogLevel w < l)
    /\ (globalLogLevel w < l -> w' = w)
    /\ (l <= globalLogLevel w ->
        s = entryLine w l (msgOf message args) /\ w' = emitted w s).
Proof.
  intros Hin.
  assert (prim : forall m a,
             exists s w',
               logFormattedEntry l m a w = Returned s w'
               /\ (s = "" <-> globalLogLevel w < l)
               /\ (globalLogLevel w < l -> w' = w)
               /\ (l <= globalLogLevel w ->
                   s = entryLine w l (Sprintf m a) /\ w' = emitted w s)).
  { intros m a. rewrite logFormattedEntry_run.
    destruct (Z.gtb_spec l (globalLogLevel w)) as [Hgt|Hle]; cbv zeta;
      eexists _, _; (split; [reflexivity|]).
    - repeat split; try lia; reflexivity.
    - repeat split; try lia.
      intros H. now apply entryLine_nonempty in H. }
  rows3 Hin; unfold Debug, Debugf, Info, Infof, Notice, Noticef, logEntry,
    concatMessage, formatMessage; rewrite <- ?appendArgs_concat; apply prim.
Qed.

(** X2. Warning, Warningf, Error, Errorf, Critical and Criticalf return
    a newly made error whose text is exactly the line they wrote,
    without the newline.  The text is empty exactly when the threshold
    suppresses the entry, and then nothing is written and the clock is
    not read. *)
Theorem X2_error_texts_are_the_lines_written
        (l : LogLevel) (f : string -> list value -> Go error)
        (msgOf : string -> list value -> string)
        (message : string) (args : list value) (w : World) :
  In (l, f, msgOf) errorEntryPoints ->
  exists e w',
    f message args w = Returned (Some e) w'
    /\ err_addr e = next_addr w
    /\ (err_text e = "" <-> globalLogLevel w < l)
    /\ (globalLogLevel w < l -> w' = allocated w)
    /\ (l <= globalLogLevel w ->
        err_text e = entryLine w l (msgOf message args)
        /\ w' = allocated (emitted w (err_text e))).
Proof.
  intros Hin.
  assert (prim : forall m a,
             exists e w',
               (s <- logFormattedEntry l m a ;; errors_New s) w = Returned (Some e) w'
               /\ err_addr e = next_addr w
               /\ (err_text e = "" <-> globalLogLevel w < l)
               /\ (globalLogLevel w < l -> w' = allocated w)
               /\ (l <= globalLogLevel w ->
                   err_text e = entryLine w l (Sprintf m a)
                   /\ w' = allocated (emitted w (err_text e)))).
  { intros m a. unfold bind. rewrite logFormattedEntry_run.
    destruct (Z.gtb_spec l (globalLogLevel w)) as [Hgt|Hle]; cbv zeta;
      eexists _, _; (split; [reflexivity|]); cbn [err_addr err_text].
    - repeat split; try lia; reflexivity.
    - repeat split; try lia.
      intros H. now apply entryLine_nonempty in H. }
  rows3 Hin; unfold Warning, Warningf, Error, Errorf, Critical, Criticalf, logEntry,
    concatMessage, formatMessage; rewrite <- ?appendArgs_concat; apply prim.
Qed.

(** X3. Fatale with a nil error still ends the process with status 1,
    under every threshold, without writing anything or reading the
    clock, and whatever the caller placed after the call never runs. *)
Theorem X3_Fatale_nil_exits_silently {A} (k : Go A) (w : World) :
  Fatale None w = Exited 1 w
  /\ (Fatale None ;; k) w = Exited 1 w.
Proof. split; reflexivity. Qed.

(** Solves [atMostOneLine] once the call has been run. *)
Ltac one_line :=
  cbv zeta; cbn [finalWorld]; split; [reflexivity|];
  first [ left; split; reflexivity
        | right;
          match goal with
          | |- context [emitted _ (entryLine _ ?l ?m)] => exists l, m
          end;
          split;
          [ unfold FATAL, CRITICAL, ERROR, WARNING, NOTICE, INFO, DEBUG; lia
          | split; reflexivity ] ].

(** X4. Each of the seventeen logging entry points, on any arguments and
    under any threshold, either leaves standard error as it was and
    does not read the clock, or appends exactly one newline-terminated
    line stamped with one clock reading and labelled with one of the
    seven defined severities; what was written before is never
    changed. *)
Theorem X4_each_call_appends_at_most_one_line
        (message : string) (args : list value) (err : error) :
  Forall (fun call => forall w, atMostOneLine w (call w))
         (publicCalls message args err).
Proof.
  unfold publicCalls.
  repeat (apply Forall_cons; [intros w|]); [..|apply Forall_nil].
  all: unfold Debug, Debugf, Info, Infof, Notice, Noticef, Warning, Warningf,
    Error, Errorf, Errore, Critical, Criticalf, Criticale, Fatal, Fatalf, Fatale,
    bind.
  all: try (destruct err as [e|]; [rewrite logErrorEntry_run | one_line]).
  all: rewrite ?logEntry_run, ?logFormattedEntry_run.
  all: destruct (_ >? globalLogLevel w); one_line.
Qed.

(** X5. A caller that reads the threshold, sets another one, runs any
    calls that leave the threshold alone (every logging entry point
    does) and then sets the value it read, ends with the threshold it
    started from; if the calls in between end the process, the
    threshold at exit is the one that was set. *)
Theorem X5_threshold_can_be_saved_and_restored
        {A} (body : Go A) (X : LogLevel) (w : World) :
  keepsLevel body ->
  match (old <- GetLevel ;; SetLevel X ;; body ;; SetLevel old) w with
  | Returned _ w' => globalLogLevel w' = globalLogLevel w
  | Exited _ w' => globalLogLevel w' = X
  end.
Proof.
  intros Hbody. unfold bind, GetLevel, SetLevel, load_globalLogLevel,
    store_globalLogLevel.
  specialize (Hbody (mkWorld X (stderr w) (clock w) (ticks w) (next_addr w))).
  destruct (body _) as [a w'|code w']; cbn in *; [reflexivity | exact Hbody].
Qed.

(** X6. The label unknown is given exactly to the integers outside
    FATAL..DEBUG, and two defined severities with the same label are the
    same severity. *)
Theorem X6_labels_identify_levels (z z' : LogLevel) :
  (LogLevel_String z = "unknown" <-> z < FATAL \/ DEBUG < z)
  /\ (FATAL <= z <= DEBUG -> FATAL <= z' <= DEBUG ->
      LogLevel_String z = LogLevel_String z' -> z = z').
Proof.
  unfold FATAL, DEBUG. split.
  - split.
    + intros H. destruct (Z.lt_ge_cases z 0) as [|H0]; [now left|].
      destruct (Z.lt_ge_cases 6 z) as [|H6]; [now right|].
      assert (Hz : z = 0 \/ z = 1 \/ z = 2 \/ z = 3 \/ z = 4 \/ z = 5 \/ z = 6)
        by lia.
      repeat (destruct Hz as [->|Hz]; [discriminate H|]). subst. discriminate H.
    + intros [H|H].
      * destruct z; try lia. reflexivity.
      * destruct z as [|p|p]; try lia.
        do 3 (destruct p as [p|p|]; try lia; try reflexivity).
  - intros Hz Hz' H.
    assert (Ez : z = 0 \/ z = 1 \/ z = 2 \/ z = 3 \/ z = 4 \/ z = 5 \/ z = 6)
      by lia.
    assert (Ez' : z' = 0 \/ z' = 1 \/ z' = 2 \/ z' = 3 \/ z' = 4 \/ z' = 5 \/ z' = 6)
      by lia.
    repeat (destruct Ez as [->|Ez]); repeat (destruct Ez' as [->|Ez']);
      subst; (reflexivity || discriminate H).
Qed.

(** X7. With a non-nil error, Errore and Criticale write exactly what
    Error and Critical write when given the error's rendered text as
    their message and no operands; the only difference is that the
    latter make a new error.  Fatale and Fatal on that text are the same
    call. *)
Theorem X7_passthrough_logs_as_concatenation_of_the_text
        (e : goerror) (w : World) :
  finalWorld (Error (rendered e) [] w) = allocated (finalWorld (Errore (Some e) w))
  /\ finalWorld (Critical (rendered e) [] w)
     = allocated (finalWorld (Criticale (Some e) w))
  /\ Fatale (Some e) w = Fatal (rendered e) [] w.
Proof.
  unfold Error, Errore, Critical, Criticale, Fatale, Fatal, logErrorEntry, rendered,
    bind.
  rewrite !logEntry_run.
  repeat split.
  all: destruct (_ >? globalLogLevel w); reflexivity.
Qed.

(** ** Templates with a percent-free prefix *)

Lemma hasPercent_append (a b : string) :
  hasPercent (a ++ b) = hasPercent a || hasPercent b.
Proof.
  induction a as [|c a IH]; cbn; [reflexivity|].
  now rewrite IH, orb_assoc.
Qed.

Lemma doPrintf_skip_prefix (m t : string) (a : list value) (n : nat) :
  hasPercent m = false ->
  Fmt.doPrintf (m ++ t) a n = option_map (append m) (Fmt.doPrintf t a n).
Proof.
  induction m as [|c m IH]; intros H.
  - cbn [append]. now destruct (Fmt.doPrintf t a n).
  - cbn in H. apply orb_false_iff in H as [Hc Hm].
    cbn [append Fmt.doPrintf]. rewrite Hc. cbn [negb].
    rewrite (IH Hm). now destruct (Fmt.doPrintf t a n).
Qed.

Lemma doPrintf_bang (rest : string) :
  hasPercent rest = false ->
  Fmt.doPrintf ("%!" ++ rest) [] 0 = Some ("%!!(MISSING)" ++ rest).
Proof.
  intros H.
  change (Fmt.doPrintf ("%!" ++ rest) [] 0)
    with (Fmt.andThen (Some (Fmt.missingArg "!")) (Fmt.doPrintf rest [] 0)).
  now rewrite doPrintf_no_percent.
Qed.

Lemma doPrintf_doubled_percent (rest : string) :
  Fmt.doPrintf ("%%" ++ rest) [] 0 = option_map (String "%") (Fmt.doPrintf rest [] 0).
Proof. reflexivity. Qed.

Lemma hasPercent_digits (d : Decimal.uint) :
  hasPercent (NilEmpty.string_of_uint d) = false.
Proof. induction d; cbn; auto. Qed.

Lemma hasPercent_itoa (n : Z) : hasPercent (Fmt.itoa n) = false.
Proof.
  unfold Fmt.itoa, NilZero.string_of_int, NilZero.string_of_uint.
  destruct (Z.to_int n) as [d|d]; destruct d; cbn;
    rewrite ?hasPercent_digits; reflexivity.
Qed.

Lemma badOperandInner_no_percent (arg : value) (inner : string) :
  badOperandInner arg = Some inner -> hasPercent inner = false.
Proof.
  destruct arg; cbn; intros [= <-]; try reflexivity.
  - cbn. apply hasPercent_itoa.
  - now destruct b.
Qed.

Lemma badOperandInner_printS (arg : value) (inner : string) :
  badOperandInner arg = Some inner -> printS arg = "%!s(" ++ inner ++ ")".
Proof. destruct arg; cbn; intros [= <-]; reflexivity. Qed.

(** X8. Nil, an integer or a boolean handed to a concatenation entry
    point comes out garbled twice: the verb [s] turns it into
    %!s(type=value), and the format step that follows reads %! as a
    verb without operand.  After a percent-free message m the entry's
    message is m, a space, and %!!(MISSING)s(type=value). *)
Theorem X8_non_string_operands_are_garbled
        (l : LogLevel) (f : string -> list value -> World -> World)
        (m : string) (arg : value) (inner : string) (w : World) :
  In (l, f) concatenationFunctions ->
  l <= globalLogLevel w ->
  hasPercent m = false ->
  badOperandInner arg = Some inner ->
  stderr (f m [arg] w)
  = stderr w ++ entryLine w l (m ++ " %!!(MISSING)s(" ++ inner ++ ")") ++ newline.
Proof.
  intros Hin Hle Hm Harg.
  assert (Hmsg : Sprintf (m ++ argsText [arg]) []
                 = m ++ " %!!(MISSING)s(" ++ inner ++ ")").
  { unfold Sprintf. cbn [argsText].
    rewrite (badOperandInner_printS _ _ Harg), append_nil_r.
    replace (m ++ " " ++ "%!s(" ++ inner ++ ")")
      with ((m ++ " ") ++ "%!s(" ++ inner ++ ")") by now rewrite append_assoc.
    rewrite doPrintf_skip_prefix
      by (rewrite hasPercent_append, Hm; reflexivity).
    change ("%!s(" ++ inner ++ ")") with ("%!" ++ "s(" ++ inner ++ ")").
    rewrite (doPrintf_bang ("s(" ++ inner ++ ")"))
      by (cbn; rewrite hasPercent_append, (badOperandInner_no_percent _ _ Harg);
          reflexivity).
    cbn [option_map]. now rewrite append_assoc. }
  rows Hin;
    unfold Debug, Info, Notice, Warning, Error, Critical, Fatal, bind;
    rewrite logEntry_emits by exact Hle; rewrite Hmsg; reflexivity.
Qed.

(** ** Calls one after the other *)

Lemma returning_call_emits
      (l : LogLevel) (f : string -> list value -> World -> World)
      (msgOf : string -> list value -> string)
      (m : string) (a : list value) (w : World) :
  In (l, f, msgOf) returningEntryPoints ->
  l <= globalLogLevel w ->
  stderr (f m a w) = stderr w ++ entryLine w l (msgOf m a) ++ newline
  /\ ticks (f m a w) = S (ticks w)
  /\ clock (f m a w) = clock w
  /\ globalLogLevel (f m a w) = globalLogLevel w.
Proof.
  intros Hin Hle.
  cbn [returningEntryPoints stringEntryPoints errorEntryPoints map app In] in Hin.
  repeat (destruct Hin as [Hin|Hin]; [injection Hin as <- <- <-|]);
    [..|contradiction].
  all: unfold Debug, Debugf, Info, Infof, Notice, Noticef, Warning, Warningf,
    Error, Errorf, Critical, Criticalf, concatMessage, formatMessage, bind.
  all: rewrite ?logEntry_emits, ?logFormattedEntry_emits by exact Hle.
  all: repeat split.
Qed.

(** X9. Two returning entry points called one after the other, both
    permitted by the threshold, leave their two lines on standard error
    in call order, the first stamped with the clock reading at the time
    of the first call and the second with the next reading; the first
    call does not change whether the second is logged. *)
Theorem X9_entries_appear_in_call_order
        (l1 l2 : LogLevel) (f1 f2 : string -> list value -> World -> World)
        (msgOf1 msgOf2 : string -> list value -> string)
        (m1 m2 : string) (a1 a2 : list value) (w : World) :
  In (l1, f1, msgOf1) returningEntryPoints ->
  In (l2, f2, msgOf2) returningEntryPoints ->
  l1 <= globalLogLevel w ->
  l2 <= globalLogLevel w ->
  stderr (f2 m2 a2 (f1 m1 a1 w))
  = stderr w
    ++ (Time_Format (clock w (ticks w)) ++ " " ++ LogLevel_String l1 ++ " "
        ++ msgOf1 m1 a1) ++ newline
    ++ (Time_Format (clock w (S (ticks w))) ++ " " ++ LogLevel_String l2 ++ " "
        ++ msgOf2 m2 a2) ++ newline.
Proof.
  intros H1 H2 Hle1 Hle2.
  destruct (returning_call_emits l1 f1 msgOf1 m1 a1 w H1 Hle1)
    as (Hs1 & Ht1 & Hc1 & Hl1).
  destruct (returning_call_emits l2 f2 msgOf2 m2 a2 (f1 m1 a1 w) H2)
    as (Hs2 & _); [rewrite Hl1; exact Hle2|].
  rewrite Hs2, Hs1. unfold entryLine. rewrite Hc1, Ht1.
  now rewrite !append_assoc.
Qed.

(** X10. A doubled percent sign is the way to log a single one through
    the concatenation entry points as well: for percent-free m and m',
    the message m%%m' without operands is written as m%m'. *)
Theorem X10_doubled_percent_is_written_once
        (l : LogLevel) (f : string -> list value -> World -> World)
        (m m' : string) (w : World) :
  In (l, f) concatenationFunctions ->
  l <= globalLogLevel w ->
  hasPercent m = false ->
  hasPercent m' = false ->
  stderr (f (m ++ "%%" ++ m') [] w)
  = stderr w ++ entryLine w l (m ++ "%" ++ m') ++ newline.
Proof.
  intros Hin Hle Hm Hm'.
  assert (Hmsg : Sprintf ((m ++ "%%" ++ m') ++ argsText []) [] = m ++ "%" ++ m').
  { unfold Sprintf. cbn [argsText]. rewrite append_nil_r.
    rewrite doPrintf_skip_prefix by exact Hm.
    rewrite doPrintf_doubled_percent, doPrintf_no_percent by exact Hm'.
    reflexivity. }
  rows Hin;
    unfold Debug, Info, Notice, Warning, Error, Critical, Fatal, bind;
    rewrite logEntry_emits by exact Hle; rewrite Hmsg; reflexivity.
Qed.

(** X11. Under a threshold that suppresses their severity, Errore and
    Criticale are the identity on their argument, nil or not: they
    return the error they were given and leave the whole world as it
    was, the clock unread. *)
Theorem X11_suppressed_passthrough_is_identity (err : error) (w : World) :
  (globalLogLevel w < ERROR -> Errore err w = Returned err w)
  /\ (globalLogLevel w < CRITICAL -> Criticale err w = Returned err w).
Proof.
  unfold Errore, Criticale.
  split; intros Hlt; (destruct err as [e|]; [|reflexivity]);
    now rewrite logErrorEntry_suppressed.
Qed.

(** X12. In a process that has not called SetLevel the threshold is
    DEBUG, so each of the seventeen entry points, the passthrough ones
    on a non-nil error, writes its entry: standard error, empty at
    start, then holds exactly one line. *)
Theorem X12_fresh_process_logs_every_severity
        (clk : nat -> Time) (message : string) (args : list value) (e : goerror) :
  Forall (fun call =>
            exists l msg,
              FATAL <= l <= DEBUG
              /\ stderr (call (initWorld clk))
                 = entryLine (initWorld clk) l msg ++ newline)
         (publicCalls message args (Some e)).
Proof.
  unfold publicCalls.
  repeat (apply Forall_cons; [|]); [..|apply Forall_nil].
  all: unfold Debug, Debugf, Info, Infof, Notice, Noticef, Warning, Warningf,
    Error, Errorf, Errore, Critical, Criticalf, Criticale, Fatal, Fatalf, Fatale,
    bind.
  all: rewrite ?logErrorEntry_emits, ?logEntry_emits, ?logFormattedEntry_emits
    by (cbn; unfold FATAL, CRITICAL, ERROR, WARNING, NOTICE, INFO, DEBUG; lia).
  all: match goal with
       | |- context [emitted _ (entryLine _ ?l ?m)] => exists l, m
       end.
  all: split;
    [unfold FATAL, CRITICAL, ERROR, WARNING, NOTICE, INFO, DEBUG; lia | reflexivity].
Qed.

Lemma returning_call_suppressed
      (l : LogLevel) (f : string -> list value -> World -> World)
      (msgOf : string -> list value -> string)
      (m : string) (a : list value) (w : World) :
  In (l, f, msgOf) returningEntryPoints ->
  globalLogLevel w < l ->
  stderr (f m a w) = stderr w.
Proof.
  intros Hin Hlt.
  cbn [returningEntryPoints stringEntryPoints errorEntryPoints map app In] in Hin.
  repeat (destruct Hin as [Hin|Hin]; [injection Hin as <- <- <-|]);
    [..|contradiction].
  all: unfold Debug, Debugf, Info, Infof, Notice, Noticef, Warning, Warningf,
    Error, Errorf, Critical, Criticalf, logEntry, bind.
  all: rewrite logFormattedEntry_run.
  all: match goal with
       | |- context [?l >? ?t] =>
           destruct (Z.gtb_spec l t); [reflexivity | lia]
       end.
Qed.

(** X13. Logging is monotone across the returning entry points: if one
    of them writes its entry under some threshold, then every entry
    point of the same or a more severe level writes its entry under that
    threshold and under every higher one, whatever the messages. *)
Theorem X13_more_severe_entries_are_logged_too
        (l1 l2 : LogLevel) (f1 f2 : string -> list value -> World -> World)
        (msgOf1 msgOf2 : string -> list value -> string)
        (m1 m2 : string) (a1 a2 : list value) (w w' : World) :
  In (l1, f1, msgOf1) returningEntryPoints ->
  In (l2, f2, msgOf2) returningEntryPoints ->
  l1 <= l2 ->
  globalLogLevel w <= globalLogLevel w' ->
  stderr (f2 m2 a2 w) <> stderr w ->
  stderr (f1 m1 a1 w') <> stderr w'.
Proof.
  intros H1 H2 Hl Hw Hwritten.
  destruct (Z.lt_ge_cases (globalLogLevel w) l2) as [Hlt|Hge].
  - exfalso. apply Hwritten.
    apply (returning_call_suppressed l2 f2 msgOf2); assumption.
  - destruct (returning_call_emits l1 f1 msgOf1 m1 a1 w' H1) as (Hs & _); [lia|].
    rewrite Hs. apply append_newline_grows.
Qed.

End Log.

(** ** The claims on concrete runs *)

Lemma C1_suppressed_run :
  logFormattedEntry noOther INFO "started" [] (sampleWorld WARNING)
  = Returned "" (sampleWorld WARNING).
Proof.
  apply (C1_written_iff_within_threshold noOther INFO "started" [] (sampleWorld WARNING)).
  reflexivity.
Defined.

Lemma C3_Warning_under_FATAL :
  exists e,
    Warning noOther "disk" [VString "full"] (sampleWorld FATAL)
    = Returned (Some e) (allocated (sampleWorld FATAL))
    /\ err_text e = ""
    /\ stderr (allocated (sampleWorld FATAL)) = stderr (sampleWorld FATAL).
Proof.
  apply (C3_error_levels_wrap_rendered_string
           noOther "disk" [VString "full"] (sampleWorld FATAL)).
  reflexivity.
Defined.

Lemma C2_Info_a_b_c :
  stderr (finalWorld (Info noOther "a" [VString "b"; VString "c"] (sampleWorld INFO)))
  = "2014-05-06 07:08:09 INFO a b c" ++ newline.
Proof.
  refine (proj1 (proj2 (C2_concatenation_goes_through_format_step
            noOther INFO (fun m a w => finalWorld (Info noOther m a w))
            "a" [VString "b"; VString "c"] (sampleWorld INFO) _ _)) _).
  - right. left. reflexivity.
  - cbn. unfold INFO. lia.
  - reflexivity.
Defined.

(** C2 as stated fails: the message 100% is not copied into the entry;
    its percent sign is read as a directive with no verb. *)
Lemma C2_percent_is_interpreted :
  stderr (finalWorld (Info noOther "100%" [] (sampleWorld INFO)))
  = "2014-05-06 07:08:09 INFO 100%!(NOVERB)" ++ newline
  /\ stderr (finalWorld (Info noOther "100%" [] (sampleWorld INFO)))
     <> stderr (sampleWorld INFO)
        ++ entryLine (sampleWorld INFO) INFO ("100%" ++ argsText []) ++ newline.
Proof. split; [reflexivity | discriminate]. Qed.

Lemma C4_Fatal_under_DEBUG :
  exists msg,
    Fatal noOther "boom" [] (sampleWorld DEBUG)
    = Exited 1 (emitted (sampleWorld DEBUG) (entryLine (sampleWorld DEBUG) FATAL msg)).
Proof.
  pose proof (C4_fatal_family_exits noOther "boom" [] (mkError 0 "boom")
                                    (sampleWorld DEBUG)) as H.
  apply Forall_inv in H. apply (proj1 (proj2 H)).
  cbn. unfold FATAL, DEBUG. lia.
Defined.

(** C4 as stated fails: under the threshold -1 Fatal exits without
    having written anything. *)
Lemma C4_negative_threshold_writes_nothing :
  Fatal noOther "boom" [] (sampleWorld (-1)) = Exited 1 (sampleWorld (-1))
  /\ stderr (finalWorld (Fatal noOther "boom" [] (sampleWorld (-1))))
     = stderr (sampleWorld (-1)).
Proof. split; reflexivity. Qed.

Lemma C5_Errore_disk_full :
  Errore noOther (Some (mkError 7 "disk full")) (sampleWorld DEBUG)
  = Returned (Some (mkError 7 "disk full"))
             (emitted (sampleWorld DEBUG)
                      (entryLine (sampleWorld DEBUG) ERROR "disk full"))
  /\ contains
       (stderr (emitted (sampleWorld DEBUG)
                        (entryLine (sampleWorld DEBUG) ERROR "disk full")))
       "disk full".
Proof.
  pose proof (C5_passthrough_returns_the_error noOther (mkError 7 "disk full")
                                               (sampleWorld DEBUG)) as H.
  apply Forall_inv in H. apply (proj2 (proj2 (proj2 H))).
  - cbn. unfold ERROR, DEBUG. lia.
  - reflexivity.
Defined.

(** C5 as stated fails: for an error whose text is %d the line written
    does not contain that text. *)
Lemma C5_line_without_the_text :
  rendered noOther (mkError 7 "%d") = "%d"
  /\ Errore noOther (Some (mkError 7 "%d")) (sampleWorld DEBUG)
     = Returned (Some (mkError 7 "%d"))
                (emitted (sampleWorld DEBUG) "2014-05-06 07:08:09 ERROR %!d(MISSING)")
  /\ ~ contains (stderr (emitted (sampleWorld DEBUG)
                                 "2014-05-06 07:08:09 ERROR %!d(MISSING)"))
                "%d".
Proof.
  split; [reflexivity|]. split; [reflexivity|].
  intros H. apply contains_containsb in H. discriminate H.
Qed.

Lemma C10_Criticale_disk_full :
  stderr (finalWorld (Criticale noOther (Some (mkError 7 "disk full"))
                                (sampleWorld DEBUG)))
  = "2014-05-06 07:08:09 CRITICAL disk full" ++ newline.
Proof.
  refine (proj2 (proj1 (C10_error_text_is_used_as_template noOther)
            CRITICAL (Criticale noOther) (mkError 7 "disk full")
            (sampleWorld DEBUG) _ _) _).
  - right. left. reflexivity.
  - cbn. unfold CRITICAL, DEBUG. lia.
  - reflexivity.
Defined.

(** ** The further properties on concrete runs *)

Lemma X1_Info_returns_its_line :
  exists s w',
    Info noOther "a" [VString "b"] (sampleWorld INFO) = Returned s w'
    /\ (s = "" <-> globalLogLevel (sampleWorld INFO) < INFO)
    /\ (globalLogLevel (sampleWorld INFO) < INFO -> w' = sampleWorld INFO)
    /\ (INFO <= globalLogLevel (sampleWorld INFO) ->
        s = entryLine (sampleWorld INFO) INFO (concatMessage noOther "a" [VString "b"])
        /\ w' = emitted (sampleWorld INFO) s).
Proof.
  apply (X1_string_results_are_the_lines_written
           noOther INFO (Info noOther) (concatMessage noOther)).
  cbn. auto 10.
Defined.

Lemma X2_Errorf_returns_its_line :
  exists e w',
    Errorf noOther "code=%d" [VInt 7] (sampleWorld DEBUG) = Returned (Some e) w'
    /\ err_addr e = next_addr (sampleWorld DEBUG)
    /\ (err_text e = "" <-> globalLogLevel (sampleWorld DEBUG) < ERROR)
    /\ (globalLogLevel (sampleWorld DEBUG) < ERROR -> w' = allocated (sampleWorld DEBUG))
    /\ (ERROR <= globalLogLevel (sampleWorld DEBUG) ->
        err_text e
        = entryLine (sampleWorld DEBUG) ERROR (formatMessage noOther "code=%d" [VInt 7])
        /\ w' = allocated (emitted (sampleWorld DEBUG) (err_text e))).
Proof.
  apply (X2_error_texts_are_the_lines_written
           noOther ERROR (Errorf noOther) (formatMessage noOther)).
  cbn. auto 10.
Defined.

Lemma X5_restore_around_Info :
  match (old <- GetLevel ;; SetLevel ERROR ;; Info noOther "quiet" [] ;; SetLevel old)
          (sampleWorld DEBUG) with
  | Returned _ w' => globalLogLevel w' = globalLogLevel (sampleWorld DEBUG)
  | Exited _ w' => globalLogLevel w' = ERROR
  end.
Proof.
  apply (X5_threshold_can_be_saved_and_restored
           (Info noOther "quiet" []) ERROR (sampleWorld DEBUG)).
  apply keepsLevel_logEntry.
Defined.

Lemma X6_WARNING_from_its_label : WARNING = 3.
Proof.
  apply (proj2 (X6_labels_identify_levels WARNING 3)).
  - unfold FATAL, WARNING, DEBUG. lia.
  - unfold FATAL, DEBUG. lia.
  - reflexivity.
Defined.

Lemma X8_Info_with_an_integer :
  stderr (finalWorld (Info noOther "count" [VInt 5] (sampleWorld INFO)))
  = stderr (sampleWorld INFO)
    ++ entryLine (sampleWorld INFO) INFO ("count" ++ " %!!(MISSING)s(" ++ "int=5" ++ ")")
    ++ newline.
Proof.
  apply (X8_non_string_operands_are_garbled
           noOther INFO (fun m a w => finalWorld (Info noOther m a w))
           "count" (VInt 5) "int=5" (sampleWorld INFO)).
  - cbn. auto 10.
  - cbn. unfold INFO. lia.
  - reflexivity.
  - reflexivity.
Defined.

Lemma X9_Info_then_Warningf :
  stderr (finalWorld
            (Warningf noOther "left=%d" [VInt 2]
                      (finalWorld (Info noOther "start" [] (sampleWorld DEBUG)))))
  = stderr (sampleWorld DEBUG)
    ++ (Time_Format (clock (sampleWorld DEBUG) (ticks (sampleWorld DEBUG))) ++ " "
        ++ LogLevel_String INFO ++ " " ++ concatMessage noOther "start" [])
    ++ newline
    ++ (Time_Format (clock (sampleWorld DEBUG) (S (ticks (sampleWorld DEBUG)))) ++ " "
        ++ LogLevel_String WARNING ++ " " ++ formatMessage noOther "left=%d" [VInt 2])
    ++ newline.
Proof.
  apply (X9_entries_appear_in_call_order
           noOther INFO WARNING
           (fun m a w => finalWorld (Info noOther m a w))
           (fun m a w => finalWorld (Warningf noOther m a w))
           (concatMessage noOther) (formatMessage noOther)
           "start" "left=%d" [] [VInt 2] (sampleWorld DEBUG)).
  - cbn. auto 20.
  - cbn. auto 20.
  - cbn. unfold INFO, DEBUG. lia.
  - cbn. unfold WARNING, DEBUG. lia.
Defined.

Lemma X10_Info_with_a_doubled_percent :
  stderr (finalWorld (Info noOther ("load 100" ++ "%%" ++ " now") []
                           (sampleWorld INFO)))
  = stderr (sampleWorld INFO)
    ++ entryLine (sampleWorld INFO) INFO ("load 100" ++ "%" ++ " now") ++ newline.
Proof.
  apply (X10_doubled_percent_is_written_once
           noOther INFO (fun m a w => finalWorld (Info noOther m a w))
           "load 100" " now" (sampleWorld INFO)).
  - cbn. auto 10.
  - cbn. unfold INFO. lia.
  - reflexivity.
  - reflexivity.
Defined.

Lemma X11_Errore_under_FATAL :
  Errore noOther (Some (mkError 7 "disk full")) (sampleWorld FATAL)
  = Returned (Some (mkError 7 "disk full")) (sampleWorld FATAL).
Proof.
  apply (proj1 (X11_suppressed_passthrough_is_identity
                  noOther (Some (mkError 7 "disk full")) (sampleWorld FATAL))).
  reflexivity.
Defined.

Lemma X13_Error_is_logged_where_Notice_is :
  stderr (finalWorld (Error noOther "disk" [VString "full"] (sampleWorld DEBUG)))
  <> stderr (sampleWorld DEBUG).
Proof.
  apply (X13_more_severe_entries_are_logged_too
           noOther ERROR NOTICE
           (fun m a w => finalWorld (Error noOther m a w))
           (fun m a w => finalWorld (Noticef noOther m a w))
           (concatMessage noOther) (formatMessage noOther)
           "disk" "up %d" [VString "full"] [VInt 3]
           (sampleWorld NOTICE) (sampleWorld DEBUG)).
  - cbn. auto 20.
  - cbn. auto 20.
  - unfold ERROR, NOTICE. lia.
  - cbn. unfold NOTICE, DEBUG. lia.
  - discriminate.
Defined.
